(** * ActionCable subscription: a shallow embedding of
      [actioncable/subscription.py] and the properties of its state machine.

    Modelling decisions.
    - Python values that cross the boundary of the class (the channel
      identifier, outgoing frames, message payloads, the fields of inbound
      frames) are JSON values, type [json].  Python dicts keep insertion
      order and [json.dumps] prints them in that order, so a dict inside a
      value is an association list.  Floats are left out of [json].
    - A Python [str] is a [string]; a character stands for the code point
      of the same number (0..255).
    - The subscription state is the free-form string the code stores.
    - The inbound frame handed to [received] is a dict used only through
      [in] and subscripting: a [gmap string json].
    - Calls made to the collaborators ([connection.send], the [on_event]
      callback, the receive callback) are appended to a trace, each with the
      value [self.state] has at the moment of the call.  Callbacks are
      observers: they do not call back into the subscription.
    - Calls to the logger change neither the subscription nor the connection
      and are not part of the model.
    - [message.raw_message()] belongs to the message class, which is outside
      this module: a message type is any instance of the class
      [MessageLike], whose single method is [raw_message]. *)

From Stdlib Require Import ZArith Lia Ascii String DecimalString.
From stdpp Require Import base strings list gmap.

#[local] Set Warnings "-register-all".

Local Open Scope string_scope.
Local Open Scope list_scope.

(** ** JSON values and [json.dumps] *)

Inductive json : Type :=
| JNull
| JBool (b : bool)
| JInt (n : Z)
| JStr (s : string)
| JList (items : list json)
| JDict (items : list (string * json)).

Module PyJson.

(** Lower-case hexadecimal digit, as printed by ['{0:04x}'.format]. *)
Definition hex_digit (n : N) : ascii :=
  match n with
  | 0 => "0" | 1 => "1" | 2 => "2" | 3 => "3" | 4 => "4" | 5 => "5"
  | 6 => "6" | 7 => "7" | 8 => "8" | 9 => "9" | 10 => "a" | 11 => "b"
  | 12 => "c" | 13 => "d" | 14 => "e" | _ => "f"
  end%N%char.

(** ['\\u{0:04x}'.format(n)] for a code point below 256. *)
Definition u_escape (n : N) : string :=
  String "\" (String "u" (String "0" (String "0"
    (String (hex_digit (n / 16)) (String (hex_digit (n mod 16)) EmptyString))))).

(** The replacement [py_encode_basestring_ascii] makes for one character:
    the entries of [ESCAPE_DCT], a [\uXXXX] escape for what is outside
    [' '..'~'], and the character itself otherwise. *)
Definition escape_char (c : ascii) : string :=
  let n := N_of_ascii c in
  if (n =? 34)%N then String "\" (String c EmptyString)
  else if (n =? 92)%N then String "\" (String c EmptyString)
  else if (n =? 8)%N then "\b"
  else if (n =? 12)%N then "\f"
  else if (n =? 10)%N then "\n"
  else if (n =? 13)%N then "\r"
  else if (n =? 9)%N then "\t"
  else if ((n <? 32) || (126 <? n))%N then u_escape n
  else String c EmptyString.

Fixpoint escape (s : string) : string :=
  match s with
  | EmptyString => EmptyString
  | String c rest => escape_char c +:+ escape rest
  end.

Definition double_quote : ascii := ascii_of_N 34.

(** [encode_basestring_ascii(s)]: the escaped text between double quotes. *)
Definition encode_basestring_ascii (s : string) : string :=
  String double_quote (escape s +:+ String double_quote EmptyString).

(** [int.__repr__]. *)
Definition int_repr (n : Z) : string :=
  NilZero.string_of_int (Z.to_int n).

Definition item_separator : string := ", ".
Definition key_separator : string := ": ".

(** [json.dumps(obj)] with the default arguments: [ensure_ascii=True],
    [indent=None], separators [(', ', ': ')], [sort_keys=False]. *)
Fixpoint dumps (v : json) : string :=
  match v with
  | JNull => "null"
  | JBool true => "true"
  | JBool false => "false"
  | JInt n => int_repr n
  | JStr s => encode_basestring_ascii s
  | JList items =>
      let fix elements (l : list json) : string :=
        match l with
        | [] => EmptyString
        | x :: rest =>
            dumps x +:+
            match rest with
            | [] => EmptyString
            | _ :: _ => item_separator +:+ elements rest
            end
        end in
      "[" +:+ elements items +:+ "]"
  | JDict items =>
      let fix members (l : list (string * json)) : string :=
        match l with
        | [] => EmptyString
        | (k, x) :: rest =>
            encode_basestring_ascii k +:+ key_separator +:+ dumps x +:+
            match rest with
            | [] => EmptyString
            | _ :: _ => item_separator +:+ members rest
            end
        end in
      "{" +:+ members items +:+ "}"
  end.

End PyJson.

(** ** Collaborators and the trace of calls made to them *)

(** The connection as the subscription uses it: the [connected] flag and
    the [subscriptions] registry.  The registry maps a uuid to the
    subscription object registered under it; an object is identified by its
    uuid, so the registry is modelled by the set of its keys. *)
Record Connection : Type := mkConnection {
  connected : bool;
  subscriptions : gset string
}.

(** A call made to a collaborator.  A callback is identified by a name. *)
Inductive Call : Type :=
| ConnSend (data : json)
| OnEvent (callback : string) (event : string) (data : option json)
| ReceiveCallback (callback : string) (message : json).

(** A trace entry: the call, and the value of [self.state] when it is made. *)
Record Event : Type := mkEvent {
  ev_call : Call;
  ev_state : string
}.

(** The frames handed to [connection.send], in call order. *)
Fixpoint sent_frames (t : list Event) : list json :=
  match t with
  | [] => []
  | e :: rest =>
      match ev_call e with
      | ConnSend data => data :: sent_frames rest
      | _ => sent_frames rest
      end
  end.

(** The [on_event] calls of a trace: the event passed and the value of
    [self.state] at the call. *)
Fixpoint state_events (t : list Event) : list (string * string) :=
  match t with
  | [] => []
  | e :: rest =>
      match ev_call e with
      | OnEvent _ event _ => (event, ev_state e) :: state_events rest
      | _ => state_events rest
      end
  end.

(** [v == s] for a Python string constant [s]; [None] on the left is the
    Python [None]. *)
Definition py_eq_str (v : option json) (s : string) : bool :=
  match v with
  | Some (JStr t) => String.eqb t s
  | _ => false
  end.

(** The five states the subscription documents. *)
Definition legal_states : list string :=
  ["unsubscribed"; "connection_pending"; "pending"; "subscribed"; "rejected"].

(** The message class, used through its [raw_message()] method only. *)
Class MessageLike (Message : Type) : Type :=
  raw_message : Message -> json.

(** The fields of a [Subscription] object.  [connection] is a reference to
    the connection, which lives in [World]. *)
Record Subscription (Message : Type) : Type := mkSubscription {
  uuid : string;
  identifier : json;
  on_event : option string;
  receive_callback : option string;
  state : string;
  message_queue : list Message
}.

Arguments mkSubscription {Message} _ _ _ _ _ _.
Arguments uuid {Message} _.
Arguments identifier {Message} _.
Arguments on_event {Message} _.
Arguments receive_callback {Message} _.
Arguments state {Message} _.
Arguments message_queue {Message} _.

(** The subscription, the connection it refers to, and the calls made so
    far. *)
Record World (Message : Type) : Type := mkWorld {
  self : Subscription Message;
  connection : Connection;
  trace : list Event
}.

Arguments mkWorld {Message} _ _ _.
Arguments self {Message} _.
Arguments connection {Message} _.
Arguments trace {Message} _.

Section Operations.

Context {Message : Type} `{!MessageLike Message}.

Definition set_state (s : string) (w : World Message) : World Message :=
  let o := self w in
  mkWorld
    (mkSubscription (uuid o) (identifier o) (on_event o)
       (receive_callback o) s (message_queue o))
    (connection w) (trace w).

Definition set_message_queue (q : list Message) (w : World Message) : World Message :=
  let o := self w in
  mkWorld
    (mkSubscription (uuid o) (identifier o) (on_event o)
       (receive_callback o) (state o) q)
    (connection w) (trace w).

Definition set_receive_callback (cb : option string) (w : World Message) : World Message :=
  let o := self w in
  mkWorld
    (mkSubscription (uuid o) (identifier o) (on_event o)
       cb (state o) (message_queue o))
    (connection w) (trace w).

(** Record a call to a collaborator. *)
Definition call (c : Call) (w : World Message) : World Message :=
  mkWorld (self w) (connection w)
    (trace w ++ [mkEvent c (state (self w))]).

(** [self.connection.send(data)]. *)
Definition connection_send (data : json) (w : World Message) : World Message :=
  call (ConnSend data) w.

(** [Subscription.__init__]; [fresh] is the value of [str(uuid.uuid1())]. *)
Definition init (fresh : string) (conn : Connection) (ident : json)
    (on_ev : option string) : World Message :=
  mkWorld
    (mkSubscription fresh ident on_ev None "unsubcribed" [])
    (mkConnection (connected conn) ({[fresh]} ∪ subscriptions conn))
    [].

Definition _identifier_string (w : World Message) : string :=
  PyJson.dumps (identifier (self w)).

Definition _on_event (event : string) (data : option json) (w : World Message)
    : World Message :=
  match on_event (self w) with
  | None => w
  | Some cb => call (OnEvent cb event data) w
  end.

Definition _set_state (s : string) (w : World Message) : World Message :=
  _on_event s None (set_state s w).

Definition subscribe_frame (w : World Message) : json :=
  JDict [("command", JStr "subscribe");
         ("identifier", JStr (_identifier_string w))].

Definition create (w : World Message) : World Message :=
  if negb (connected (connection w)) then
    set_state "connection_pending" w
  else
    _set_state "pending" (connection_send (subscribe_frame w) w).

Definition unsubscribe_frame (w : World Message) : json :=
  JDict [("command", JStr "unsubscribe");
         ("identifier", JStr (_identifier_string w))].

Definition remove (w : World Message) : World Message :=
  _set_state "unsubscribed" (connection_send (unsubscribe_frame w) w).

Definition message_frame (w : World Message) (message : Message) : json :=
  JDict [("command", JStr "message");
         ("identifier", JStr (_identifier_string w));
         ("data", raw_message message)].

Definition send (message : Message) (w : World Message) : World Message :=
  let st := state (self w) in
  if String.eqb st "pending" || String.eqb st "connection_pending" then
    set_message_queue (message_queue (self w) ++ [message]) w
  else if String.eqb st "unsubscribed" || String.eqb st "rejected" then
    w
  else
    connection_send (message_frame w message) w.

Definition on_receive (callback : string) (w : World Message) : World Message :=
  set_receive_callback (Some callback) w.

(** The loop [for message in self.message_queue: self.send(message)].
    The list iterator keeps an index into the live list and stops when the
    index reaches its current length, so the queue is read again at every
    step.  [fuel] bounds the number of iterations; [None] is fuel
    exhausted. *)
Fixpoint send_queued (fuel : nat) (i : nat) (w : World Message) : option (World Message) :=
  match message_queue (self w) !! i with
  | None => Some w
  | Some message =>
      match fuel with
      | O => None
      | S fuel' => send_queued fuel' (S i) (send message w)
      end
  end.

Definition _subscribed (fuel : nat) (w : World Message) : option (World Message) :=
  send_queued fuel 0 (_set_state "subscribed" w).

Definition _rejected (w : World Message) : World Message :=
  set_message_queue [] (_set_state "rejected" w).

Definition received (fuel : nat) (data : gmap string json) (w : World Message)
    : option (World Message) :=
  let message_type := data !! "type" in
  if py_eq_str message_type "confirm_subscription" then
    _subscribed fuel w
  else if py_eq_str message_type "reject_subscription" then
    Some (_rejected w)
  else
    match receive_callback (self w), data !! "message" with
    | Some cb, Some m => Some (call (ReceiveCallback cb m) w)
    | _, _ => Some w
    end.

(** The calls [_set_state s] makes: one [on_event] call when the
    callback is set, made with the state already equal to [s]. *)
Definition state_calls (w : World Message) (s : string) : list Event :=
  match on_event (self w) with
  | None => []
  | Some cb => [mkEvent (OnEvent cb s None) s]
  end.

(** The calls the flush makes for the messages [ms]. *)
Definition flush_calls (w : World Message) (ms : list Message) : list Event :=
  map (fun m => mkEvent (ConnSend (message_frame w m)) "subscribed") ms.


End Operations.

(** ** The scenario of the specification *)

(** A message class whose [raw_message()] returns the payload it holds. *)
#[global] Instance payload_message : MessageLike json :=
  fun payload => payload.

(** The identifier of the chat channel, room 1, keys in the caller's order. *)
Definition chat_identifier : json :=
  JDict [("channel", JStr "ChatChannel"); ("room", JStr "1")].

(** [s] between double quotes. *)
Definition quoted (s : string) : string :=
  String PyJson.double_quote (s +:+ String PyJson.double_quote EmptyString).

(** The identifier text with no space after [:] and [,]. *)
Definition compact_chat_identifier : string :=
  "{" +:+ quoted "channel" +:+ ":" +:+ quoted "ChatChannel" +:+ ","
      +:+ quoted "room" +:+ ":" +:+ quoted "1" +:+ "}".

(** The identifier text as [json.dumps] prints it by default: a space after
    each [:] and each [,]. *)
Definition spaced_chat_identifier : string :=
  "{" +:+ quoted "channel" +:+ ": " +:+ quoted "ChatChannel" +:+ ", "
      +:+ quoted "room" +:+ ": " +:+ quoted "1" +:+ "}".

Definition open_connection : Connection := mkConnection true ∅.
Definition closed_connection : Connection := mkConnection false ∅.

(** A subscription to the chat channel in state [st] with queue [q], on a
    connection with the given [connected] flag, with a state callback. *)
Definition chat_world (st : string) (q : list json) (conn : Connection)
    : World json :=
  mkWorld
    (mkSubscription "6fa459ea" chat_identifier (Some "on_state") None st q)
    conn [].

Definition text_hi : json := JDict [("text", JStr "hi")].
Definition text_yo : json := JDict [("text", JStr "yo")].

Definition confirm_frame : gmap string json :=
  {[ "type" := JStr "confirm_subscription" ]}.
Definition reject_frame : gmap string json :=
  {[ "type" := JStr "reject_subscription" ]}.

(** An application message from the server, and a frame with nothing the
    subscription knows. *)
Definition chat_message : gmap string json :=
  {[ "message" := text_hi ]}.
Definition ping_frame : gmap string json :=
  {[ "type" := JStr "ping" ]}.

(** ** Sequences of calls *)

(** What can happen to a subscription: a call of one of its public methods
    by the application, a frame forwarded by the connection, or the
    connection being established or lost. *)
Inductive Op (Message : Type) : Type :=
| OpCreate
| OpRemove
| OpSend (message : Message)
| OpOnReceive (callback : string)
| OpReceived (data : gmap string json)
| OpConnection (established : bool).

Arguments OpCreate {Message}.
Arguments OpRemove {Message}.
Arguments OpSend {Message} _.
Arguments OpOnReceive {Message} _.
Arguments OpReceived {Message} _.
Arguments OpConnection {Message} _.

(** [d[k]] for a dict written as an association list. *)
Fixpoint assoc (k : string) (l : list (string * json)) : option json :=
  match l with
  | [] => None
  | (k', v) :: rest => if String.eqb k k' then Some v else assoc k rest
  end.

(** The field [k] of an outgoing frame. *)
Definition frame_field (k : string) (f : json) : option json :=
  match f with
  | JDict items => assoc k items
  | _ => None
  end.

(** The calls to the receive callback of a trace: callback and payload. *)
Fixpoint receive_calls (t : list Event) : list (string * json) :=
  match t with
  | [] => []
  | e :: rest =>
      match ev_call e with
      | ReceiveCallback cb m => (cb, m) :: receive_calls rest
      | _ => receive_calls rest
      end
  end.

(** Characters [' '..'~']. *)
Definition printable (c : ascii) : bool :=
  let n := N_of_ascii c in ((32 <=? n) && (n <=? 126))%N.

Fixpoint all_printable (s : string) : bool :=
  match s with
  | EmptyString => true
  | String c rest => printable c && all_printable rest
  end.

(** The states in which [send] does not hand the message to the
    connection. *)
Definition holding_states : list string :=
  ["pending"; "connection_pending"; "unsubscribed"; "rejected"].

(** What every call recorded for a subscription with identifier [ident] and
    state callback [cb] looks like. *)
Definition call_ok (ident : json) (cb : option string) (e : Event) : Prop :=
  match ev_call e with
  | ConnSend f =>
      frame_field "identifier" f = Some (JStr (PyJson.dumps ident)) /\
      (frame_field "command" f = Some (JStr "subscribe") \/
       frame_field "command" f = Some (JStr "unsubscribe") \/
       (frame_field "command" f = Some (JStr "message") /\
        ~ In (ev_state e) holding_states))
  | OnEvent c event data =>
      cb = Some c /\ event = ev_state e /\ data = None /\
      In event legal_states
  | ReceiveCallback c m => True
  end.

Section Sessions.

Context {Message : Type} `{!MessageLike Message}.

(** The connection is established or lost: its [connected] flag changes. *)
Definition set_connected (b : bool) (w : World Message) : World Message :=
  mkWorld (self w) (mkConnection b (subscriptions (connection w))) (trace w).

(** [received(data)], with fuel for one iteration per queued message. *)
Definition deliver (data : gmap string json) (w : World Message)
    : option (World Message) :=
  received (length (message_queue (self w))) data w.

Definition step (op : Op Message) (w : World Message)
    : option (World Message) :=
  match op with
  | OpCreate => Some (create w)
  | OpRemove => Some (remove w)
  | OpSend m => Some (send m w)
  | OpOnReceive cb => Some (on_receive cb w)
  | OpReceived data => deliver data w
  | OpConnection b => Some (set_connected b w)
  end.

Fixpoint run (ops : list (Op Message)) (w : World Message)
    : option (World Message) :=
  match ops with
  | [] => Some w
  | op :: rest =>
      match step op w with
      | Some w' => run rest w'
      | None => None
      end
  end.

(** An inbound frame that is neither a confirmation nor a rejection. *)
Definition plain_frame (data : gmap string json) : Prop :=
  py_eq_str (data !! "type") "confirm_subscription" = false /\
  py_eq_str (data !! "type") "reject_subscription" = false.


(** What one operation may do to a world: an auxiliary summary, used for
    the invariants below. *)
Definition advances (w w' : World Message) : Prop :=
  uuid (self w') = uuid (self w) /\
  identifier (self w') = identifier (self w) /\
  on_event (self w') = on_event (self w) /\
  subscriptions (connection w') = subscriptions (connection w) /\
  (state (self w') = state (self w) \/ In (state (self w')) legal_states) /\
  exists new,
    trace w' = trace w ++ new /\
    Forall (call_ok (identifier (self w)) (on_event (self w))) new /\
    Forall (fun e => ev_state e = state (self w) \/
                     In (ev_state e) legal_states) new.

End Sessions.

(** A session: subscribe, send while waiting, be confirmed, send again,
    unsubscribe. *)
Definition chat_session : list (Op json) :=
  [OpCreate; OpSend text_hi; OpReceived confirm_frame; OpSend text_yo;
   OpRemove].

Section Properties.

Context {Message : Type} `{!MessageLike Message}.

(** ** Basic facts *)

Lemma sent_frames_app (a b : list Event) :
  sent_frames (a ++ b) = sent_frames a ++ sent_frames b.
Proof.
  induction a as [|e a IH]; simpl; [reflexivity|].
  destruct (ev_call e); simpl; rewrite IH; reflexivity.
Qed.

Lemma state_events_app (a b : list Event) :
  state_events (a ++ b) = state_events a ++ state_events b.
Proof.
  induction a as [|e a IH]; simpl; [reflexivity|].
  destruct (ev_call e); simpl; rewrite IH; reflexivity.
Qed.

Lemma sent_frames_state_calls (w : World Message) (s : string) :
  sent_frames (state_calls w s) = [].
Proof. unfold state_calls. destruct (on_event (self w)); reflexivity. Qed.

Lemma sent_frames_flush_calls (w : World Message) (ms : list Message) :
  sent_frames (flush_calls w ms) = map (message_frame w) ms.
Proof.
  induction ms as [|m ms IH]; simpl; [reflexivity|]. now rewrite IH.
Qed.

(** The frames depend on the world through the identifier only. *)
Lemma flush_calls_identifier (w' w : World Message) (ms : list Message) :
  identifier (self w') = identifier (self w) ->
  flush_calls w' ms = flush_calls w ms.
Proof.
  intros H. unfold flush_calls, message_frame, _identifier_string.
  rewrite H. reflexivity.
Qed.



(** [_set_state] written out. *)
Lemma _set_state_eq (s : string) (w : World Message) :
  _set_state s w =
  mkWorld (self (set_state s w)) (connection w)
    (trace w ++ state_calls w s).
Proof.
  unfold _set_state, _on_event, state_calls. destruct w as [o c t].
  destruct o as [u i ev rc st q]. simpl.
  destruct ev; simpl; [reflexivity|]. now rewrite app_nil_r.
Qed.

Lemma send_subscribed (m : Message) (w : World Message) :
  state (self w) = "subscribed" ->
  send m w = connection_send (message_frame w m) w.
Proof. intros H. unfold send. rewrite H. reflexivity. Qed.

(** In state [subscribed] the loop ends after one step per message left
    in the queue and sends each of them. *)
Lemma send_queued_subscribed (fuel i : nat) (w : World Message) :
  state (self w) = "subscribed" ->
  length (message_queue (self w)) <= fuel + i ->
  send_queued fuel i w =
  Some (mkWorld (self w) (connection w)
          (trace w ++ flush_calls w (drop i (message_queue (self w))))).
Proof.
  revert i w. induction fuel as [|fuel IH]; intros i w Hst Hlen; simpl.
  - rewrite (proj2 (lookup_ge_None _ _)) by lia.
    rewrite drop_ge by lia. simpl. rewrite app_nil_r. now destruct w.
  - destruct (message_queue (self w) !! i) as [m|] eqn:Hm.
    + rewrite (send_subscribed m w Hst).
      rewrite IH; [|exact Hst|simpl; lia].
      rewrite (drop_S _ _ _ Hm). simpl.
      rewrite <- app_assoc. simpl. rewrite Hst. reflexivity.
    + apply lookup_ge_None in Hm. rewrite drop_ge by lia.
      simpl. rewrite app_nil_r. now destruct w.
Qed.

(** [_subscribed] written out, given fuel for the whole queue. *)
Lemma _subscribed_eq (fuel : nat) (w : World Message) :
  length (message_queue (self w)) <= fuel ->
  _subscribed fuel w =
  Some (mkWorld (self (set_state "subscribed" w)) (connection w)
          (trace w ++ state_calls w "subscribed"
                   ++ flush_calls w (message_queue (self w)))).
Proof.
  intros Hlen. unfold _subscribed. rewrite _set_state_eq.
  rewrite send_queued_subscribed; simpl; [|reflexivity|lia].
  rewrite drop_0, <- app_assoc. reflexivity.
Qed.

Lemma _rejected_eq (w : World Message) :
  _rejected w =
  mkWorld
    (mkSubscription (uuid (self w)) (identifier (self w))
       (on_event (self w)) (receive_callback (self w)) "rejected" [])
    (connection w) (trace w ++ state_calls w "rejected").
Proof. unfold _rejected. rewrite _set_state_eq. reflexivity. Qed.

Lemma received_confirm (fuel : nat) (data : gmap string json) (w : World Message) :
  data !! "type" = Some (JStr "confirm_subscription") ->
  received fuel data w = _subscribed fuel w.
Proof. intros H. unfold received. rewrite H. reflexivity. Qed.

Lemma received_reject (fuel : nat) (data : gmap string json) (w : World Message) :
  data !! "type" = Some (JStr "reject_subscription") ->
  received fuel data w = Some (_rejected w).
Proof. intros H. unfold received. rewrite H. reflexivity. Qed.

Lemma remove_eq (w : World Message) :
  remove w =
  mkWorld (self (set_state "unsubscribed" w)) (connection w)
    (trace w ++ mkEvent (ConnSend (unsubscribe_frame w)) (state (self w))
             :: state_calls w "unsubscribed").
Proof.
  unfold remove. rewrite _set_state_eq. simpl.
  rewrite <- app_assoc. reflexivity.
Qed.

Lemma send_dropped_eq (m : Message) (w : World Message) :
  state (self w) = "unsubscribed" \/ state (self w) = "rejected" ->
  send m w = w.
Proof. intros [H|H]; unfold send; rewrite H; reflexivity. Qed.

(** ** The constructor *)

(** C1 (what the code does). A freshly constructed subscription holds the
    string [unsubcribed] in its state field, for every uuid, connection,
    identifier and callback; that string is none of the five documented
    states, so the field is not equal to [unsubscribed]. *)
Theorem init_state_misspelled (fresh : string) (conn : Connection)
    (ident : json) (on_ev : option string) :
  state (self (@init Message fresh conn ident on_ev)) = "unsubcribed" /\
  state (self (@init Message fresh conn ident on_ev)) <> "unsubscribed" /\
  ~ In (state (self (@init Message fresh conn ident on_ev))) legal_states.
Proof.
  simpl. split; [reflexivity|]. split; [discriminate|].
  intros [H|[H|[H|[H|[H|[]]]]]]; discriminate H.
Qed.

(** A consequence of the misspelled initial state: [send] on a fresh
    subscription is not dropped, it hands a message frame to the
    connection. *)
Lemma init_then_send_emits (fresh : string) (conn : Connection)
    (ident : json) (on_ev : option string) (m : Message) :
  sent_frames (trace (send m (@init Message fresh conn ident on_ev))) =
  [message_frame (@init Message fresh conn ident on_ev) m].
Proof. reflexivity. Qed.

(** ** State changes and the state callback *)

(** Every change of state made through [_set_state] calls the callback,
    when one is set, with the new state and after the field is updated. *)
Lemma _set_state_reports (s cb : string) (w : World Message) :
  on_event (self w) = Some cb ->
  state (self (_set_state s w)) = s /\
  trace (_set_state s w) = trace w ++ [mkEvent (OnEvent cb s None) s].
Proof.
  intros H. rewrite _set_state_eq. unfold state_calls. rewrite H.
  split; reflexivity.
Qed.

(** [create] without a connection assigns the state field directly: no
    call is made at all, whether or not a callback is set. *)
Lemma create_disconnected_silent (w : World Message) :
  connected (connection w) = false ->
  state (self (create w)) = "connection_pending" /\
  trace (create w) = trace w.
Proof. intros H. unfold create. rewrite H. split; reflexivity. Qed.

(** ** [create] *)

(** [create] on an established connection: one subscribe frame carrying
    [json.dumps] of the identifier, then state [pending]. *)
Lemma create_connected_eq (w : World Message) :
  connected (connection w) = true ->
  create w =
  mkWorld (self (set_state "pending" w)) (connection w)
    (trace w ++ mkEvent (ConnSend (subscribe_frame w)) (state (self w))
             :: state_calls w "pending").
Proof.
  intros H. unfold create. rewrite H. simpl. rewrite _set_state_eq.
  simpl. rewrite <- app_assoc. reflexivity.
Qed.

(** C3 (amended). For a subscription whose identifier is the chat
    identifier, on an established connection, [create] hands the
    connection exactly one frame: command [subscribe], identifier the
    text [json.dumps] prints by default, with a space after each colon
    and each comma; the state becomes [pending]. *)
Theorem create_sends_spaced_identifier (w : World Message) :
  connected (connection w) = true ->
  identifier (self w) = chat_identifier ->
  exists new,
    trace (create w) = trace w ++ new /\
    sent_frames new =
      [JDict [("command", JStr "subscribe");
              ("identifier", JStr spaced_chat_identifier)]] /\
    state (self (create w)) = "pending".
Proof.
  intros Hc Hi. rewrite (create_connected_eq w Hc). eexists.
  split; [reflexivity|]. split; [|reflexivity].
  simpl. rewrite sent_frames_state_calls.
  unfold subscribe_frame, _identifier_string. rewrite Hi. reflexivity.
Qed.

(** ** Confirmation and the flush *)


(** C8. The flush leaves the queue as it is: after a
    [confirm_subscription] frame the queue holds the same messages, and a
    second [confirm_subscription] frame sends a message frame for each of
    them again. *)
Theorem confirm_twice_resends (fuel : nat) (data : gmap string json)
    (w : World Message) :
  data !! "type" = Some (JStr "confirm_subscription") ->
  length (message_queue (self w)) <= fuel ->
  exists w1 w2 new1 new2,
    received fuel data w = Some w1 /\
    trace w1 = trace w ++ new1 /\
    sent_frames new1 = map (message_frame w) (message_queue (self w)) /\
    message_queue (self w1) = message_queue (self w) /\
    received fuel data w1 = Some w2 /\
    trace w2 = trace w1 ++ new2 /\
    sent_frames new2 = map (message_frame w) (message_queue (self w)) /\
    message_queue (self w2) = message_queue (self w).
Proof.
  intros Hty Hlen. rewrite (received_confirm fuel data w Hty).
  rewrite (_subscribed_eq fuel w Hlen).
  eexists. eexists. eexists. eexists.
  split; [reflexivity|]. split; [reflexivity|]. split.
  { rewrite sent_frames_app, sent_frames_state_calls.
    apply sent_frames_flush_calls. }
  split; [reflexivity|].
  rewrite (received_confirm fuel data _ Hty).
  rewrite _subscribed_eq by exact Hlen.
  split; [reflexivity|]. split; [reflexivity|]. split; [|reflexivity].
  rewrite sent_frames_app, sent_frames_state_calls.
  rewrite (flush_calls_identifier _ w) by reflexivity.
  apply sent_frames_flush_calls.
Qed.

(** ** Rejection *)

(** C5. In state [pending], a frame of type [reject_subscription] makes
    [received] return with state [rejected] and an empty queue; any
    sequence of [send] calls that follows leaves the subscription, the
    connection and the trace as they are, so no frame goes out. *)
Theorem reject_clears_queue (fuel : nat) (data : gmap string json)
    (w : World Message) :
  state (self w) = "pending" ->
  data !! "type" = Some (JStr "reject_subscription") ->
  exists w',
    received fuel data w = Some w' /\
    state (self w') = "rejected" /\
    message_queue (self w') = [] /\
    forall ms : list Message,
      foldl (fun acc m => send m acc) w' ms = w' /\
      sent_frames (trace (foldl (fun acc m => send m acc) w' ms)) =
      sent_frames (trace w').
Proof.
  intros _ Hty. rewrite (received_reject fuel data w Hty).
  eexists. split; [reflexivity|]. rewrite _rejected_eq.
  split; [reflexivity|]. split; [reflexivity|].
  intros ms.
  assert (H : foldl (fun acc m => send m acc)
                (mkWorld
                   (mkSubscription (uuid (self w)) (identifier (self w))
                      (on_event (self w)) (receive_callback (self w))
                      "rejected" [])
                   (connection w) (trace w ++ state_calls w "rejected")) ms
              = mkWorld
                   (mkSubscription (uuid (self w)) (identifier (self w))
                      (on_event (self w)) (receive_callback (self w))
                      "rejected" [])
                   (connection w) (trace w ++ state_calls w "rejected")).
  { induction ms as [|m ms IH]; simpl; [reflexivity|exact IH]. }
  rewrite H. split; reflexivity.
Qed.

(** ** [remove] *)

(** C6. From every state and whatever the [connected] flag, [remove]
    adds to the trace exactly one frame, the unsubscribe frame carrying
    [json.dumps] of the identifier, and leaves the state [unsubscribed];
    the connection record is untouched. *)
Theorem remove_sends_unsubscribe (w : World Message) :
  exists new,
    trace (remove w) = trace w ++ new /\
    sent_frames new =
      [JDict [("command", JStr "unsubscribe");
              ("identifier", JStr (PyJson.dumps (identifier (self w))))]] /\
    state (self (remove w)) = "unsubscribed" /\
    connection (remove w) = connection w.
Proof.
  rewrite remove_eq. eexists. split; [reflexivity|].
  simpl. rewrite sent_frames_state_calls. repeat split.
Qed.

(** C10. [remove] leaves the queue as it is, and a later
    [confirm_subscription] frame sends a message frame for every message
    still in it, although [remove] had set the state to [unsubscribed]. *)
Theorem remove_keeps_queue (fuel : nat) (data : gmap string json)
    (w : World Message) :
  data !! "type" = Some (JStr "confirm_subscription") ->
  length (message_queue (self w)) <= fuel ->
  message_queue (self (remove w)) = message_queue (self w) /\
  state (self (remove w)) = "unsubscribed" /\
  exists w' new,
    received fuel data (remove w) = Some w' /\
    trace w' = trace (remove w) ++ new /\
    sent_frames new = map (message_frame w) (message_queue (self w)) /\
    state (self w') = "subscribed".
Proof.
  intros Hty Hlen. rewrite remove_eq.
  split; [reflexivity|]. split; [reflexivity|].
  rewrite (received_confirm fuel data _ Hty).
  rewrite _subscribed_eq by exact Hlen.
  eexists. eexists. split; [reflexivity|]. split; [reflexivity|].
  split; [|reflexivity].
  rewrite sent_frames_app, sent_frames_state_calls.
  rewrite (flush_calls_identifier _ w) by reflexivity.
  apply sent_frames_flush_calls.
Qed.

(** ** [send] *)

(** C7. In state [unsubscribed] or [rejected], [send] returns the world
    it was given: no call to the connection or to a callback, hence no
    frame, and the same queue.  No branch of the model can raise: [send]
    is a total function and this branch evaluates neither [raw_message]
    nor [json.dumps]. *)
Theorem send_dropped (m : Message) (w : World Message) :
  state (self w) = "unsubscribed" \/ state (self w) = "rejected" ->
  send m w = w /\
  sent_frames (trace (send m w)) = sent_frames (trace w) /\
  message_queue (self (send m w)) = message_queue (self w).
Proof.
  intros H. rewrite (send_dropped_eq m w H). repeat split.
Qed.

(** ** [received] *)

(** C9. [received] looks at the [type] field only.  From every state, a
    [confirm_subscription] frame runs [_subscribed] and ends in state
    [subscribed]; a [reject_subscription] frame runs [_rejected] and ends
    in state [rejected]. *)
Theorem received_ignores_state (fuel : nat) (data : gmap string json)
    (w : World Message) :
  (data !! "type" = Some (JStr "confirm_subscription") ->
   length (message_queue (self w)) <= fuel ->
   received fuel data w = _subscribed fuel w /\
   exists w', received fuel data w = Some w' /\
              state (self w') = "subscribed") /\
  (data !! "type" = Some (JStr "reject_subscription") ->
   received fuel data w = Some (_rejected w) /\
   state (self (_rejected w)) = "rejected").
Proof.
  split.
  - intros Hty Hlen. split; [exact (received_confirm fuel data w Hty)|].
    rewrite (received_confirm fuel data w Hty).
    rewrite (_subscribed_eq fuel w Hlen). eexists.
    split; reflexivity.
  - intros Hty. split; [exact (received_reject fuel data w Hty)|].
    rewrite _rejected_eq. reflexivity.
Qed.

End Properties.

(** ** The scenario, evaluated *)

(** C2 (what the code does). A subscription built with a state callback on
    a connection that is not established: [create] moves the state field to
    [connection_pending] and the callback is not called. *)
Theorem create_disconnected_no_state_event :
  let w0 : World json :=
    init "6fa459ea" closed_connection chat_identifier (Some "on_state") in
  on_event (self (create w0)) = Some "on_state" /\
  state (self w0) <> state (self (create w0)) /\
  state (self (create w0)) = "connection_pending" /\
  state_events (trace (create w0)) = [].
Proof. simpl. repeat split. discriminate. Qed.

(** The same subscription on an established connection: the sibling branch
    of [create] does report its transition. *)
Example create_connected_state_event :
  state_events
    (trace (create (init (Message := json) "6fa459ea" open_connection
                      chat_identifier (Some "on_state")))) =
  [("pending", "pending")].
Proof. reflexivity. Qed.

(** C3 (as stated, refuted). On an established connection, the frame
    [create] sends for the chat identifier is not the one whose identifier
    field is the compact text. *)
Lemma create_identifier_not_compact :
  sent_frames
    (trace (create (init (Message := json) "6fa459ea" open_connection
                      chat_identifier None))) <>
  [JDict [("command", JStr "subscribe");
          ("identifier", JStr compact_chat_identifier)]].
Proof. vm_compute. intros H. discriminate H. Qed.

Lemma create_sends_spaced_identifier_witness :
  exists new,
    trace (create (chat_world "unsubcribed" [] open_connection)) =
      trace (chat_world "unsubcribed" [] open_connection) ++ new /\
    sent_frames new =
      [JDict [("command", JStr "subscribe");
              ("identifier", JStr spaced_chat_identifier)]] /\
    state (self (create (chat_world "unsubcribed" [] open_connection))) =
      "pending".
Proof.
  apply (create_sends_spaced_identifier
           (chat_world "unsubcribed" [] open_connection));
    reflexivity.
Defined.


Lemma confirm_twice_resends_witness :
  exists w1 w2 new1 new2,
    received 1 confirm_frame
      (chat_world "pending" [text_hi] open_connection) = Some w1 /\
    trace w1 = trace (chat_world "pending" [text_hi] open_connection)
               ++ new1 /\
    sent_frames new1 =
      map (message_frame (chat_world "pending" [text_hi] open_connection))
        [text_hi] /\
    message_queue (self w1) = [text_hi] /\
    received 1 confirm_frame w1 = Some w2 /\
    trace w2 = trace w1 ++ new2 /\
    sent_frames new2 =
      map (message_frame (chat_world "pending" [text_hi] open_connection))
        [text_hi] /\
    message_queue (self w2) = [text_hi].
Proof.
  apply (confirm_twice_resends 1 confirm_frame
           (chat_world "pending" [text_hi] open_connection)).
  - reflexivity.
  - simpl. lia.
Defined.

Lemma reject_clears_queue_witness :
  exists w',
    received 0 reject_frame
      (chat_world "pending" [text_hi] open_connection) = Some w' /\
    state (self w') = "rejected" /\
    message_queue (self w') = [] /\
    forall ms : list json,
      foldl (fun acc m => send m acc) w' ms = w' /\
      sent_frames (trace (foldl (fun acc m => send m acc) w' ms)) =
      sent_frames (trace w').
Proof.
  apply (reject_clears_queue 0 reject_frame
           (chat_world "pending" [text_hi] open_connection));
    reflexivity.
Defined.

Lemma remove_keeps_queue_witness :
  message_queue
    (self (remove (chat_world "pending" [text_hi; text_yo] open_connection)))
    = [text_hi; text_yo] /\
  state
    (self (remove (chat_world "pending" [text_hi; text_yo] open_connection)))
    = "unsubscribed" /\
  exists w' new,
    received 2 confirm_frame
      (remove (chat_world "pending" [text_hi; text_yo] open_connection))
      = Some w' /\
    trace w' =
      trace (remove (chat_world "pending" [text_hi; text_yo] open_connection))
      ++ new /\
    sent_frames new =
      map (message_frame
             (chat_world "pending" [text_hi; text_yo] open_connection))
        [text_hi; text_yo] /\
    state (self w') = "subscribed".
Proof.
  apply (remove_keeps_queue 2 confirm_frame
           (chat_world "pending" [text_hi; text_yo] open_connection)).
  - reflexivity.
  - simpl. lia.
Defined.

Lemma send_dropped_witness :
  send text_hi (chat_world "rejected" [text_yo] open_connection) =
    chat_world "rejected" [text_yo] open_connection /\
  sent_frames
    (trace (send text_hi (chat_world "rejected" [text_yo] open_connection)))
    = [] /\
  message_queue
    (self (send text_hi (chat_world "rejected" [text_yo] open_connection)))
    = [text_yo].
Proof.
  apply (send_dropped text_hi
           (chat_world "rejected" [text_yo] open_connection)).
  right. reflexivity.
Defined.

Lemma received_ignores_state_witness :
  (exists w',
     received 1 confirm_frame
       (chat_world "rejected" [text_hi] open_connection) = Some w' /\
     state (self w') = "subscribed") /\
  state (self (_rejected (chat_world "unsubscribed" [] closed_connection)))
    = "rejected".
Proof.
  split.
  - apply (proj1 (received_ignores_state 1 confirm_frame
                    (chat_world "rejected" [text_hi] open_connection))).
    + reflexivity.
    + simpl. lia.
  - apply (proj2 (received_ignores_state 0 reject_frame
                    (chat_world "unsubscribed" [] closed_connection))).
    reflexivity.
Defined.

(** The end-to-end scenario: [create] on an established connection, one
    [send] while pending, then the confirmation.  Two frames reach the
    connection, the second one after the state is [subscribed]. *)
Example chat_scenario :
  let w1 := create (init "6fa459ea" open_connection chat_identifier None) in
  let w2 := send text_hi w1 in
  (state (self w1), message_queue (self w2), sent_frames (trace w2)) =
    ("pending", [text_hi],
     [JDict [("command", JStr "subscribe");
             ("identifier", JStr spaced_chat_identifier)]]) /\
  (fun r => (state (self r), sent_frames (trace r)))
    <$> received 1 confirm_frame w2 =
    Some ("subscribed",
          [JDict [("command", JStr "subscribe");
                  ("identifier", JStr spaced_chat_identifier)];
           JDict [("command", JStr "message");
                  ("identifier", JStr spaced_chat_identifier);
                  ("data", text_hi)]]).
Proof. split; reflexivity. Qed.

(** * Further properties of the subscription *)

Section Operations_facts.

Context {Message : Type} `{!MessageLike Message}.

(** ** Construction *)

(** X1. The constructor registers the new subscription under its uuid and
    keeps every key already in the registry, adds no other key, leaves the
    [connected] flag alone, and makes no call: the subscription starts with
    an empty queue and no receive callback. *)
Theorem init_registers (fresh : string) (conn : Connection) (ident : json)
    (on_ev : option string) :
  fresh ∈ subscriptions (connection (@init Message fresh conn ident on_ev)) /\
  (forall k, k ∈ subscriptions (connection
                                  (@init Message fresh conn ident on_ev)) <->
             k = fresh \/ k ∈ subscriptions conn) /\
  connected (connection (@init Message fresh conn ident on_ev)) =
    connected conn /\
  trace (@init Message fresh conn ident on_ev) = [] /\
  message_queue (self (@init Message fresh conn ident on_ev)) = [] /\
  receive_callback (self (@init Message fresh conn ident on_ev)) = None.
Proof.
  simpl. split; [set_solver|]. split; [|repeat split].
  intros k. set_solver.
Qed.

(** ** [create] *)

(** X2. Without an established connection [create] contacts nobody: the trace,
    the queue, the connection and the callbacks are as before, whatever the
    state was; only the state changes, to [connection_pending]. *)
Theorem create_without_connection (w : World Message) :
  connected (connection w) = false ->
  state (self (create w)) = "connection_pending" /\
  trace (create w) = trace w /\
  message_queue (self (create w)) = message_queue (self w) /\
  connection (create w) = connection w /\
  receive_callback (self (create w)) = receive_callback (self w).
Proof. intros H. unfold create. rewrite H. repeat split. Qed.

(** X3. On an established connection [create] hands the connection one
    subscribe frame carrying [json.dumps] of the identifier, from whatever
    state and with the state still the old one; only then does the state
    become [pending] and the state callback, if set, hear of it.  The queue
    is kept. *)
Theorem create_subscribes (w : World Message) :
  connected (connection w) = true ->
  trace (create w) =
    trace w
    ++ mkEvent
         (ConnSend
            (JDict [("command", JStr "subscribe");
                    ("identifier",
                     JStr (PyJson.dumps (identifier (self w))))]))
         (state (self w))
       :: match on_event (self w) with
          | Some cb => [mkEvent (OnEvent cb "pending" None) "pending"]
          | None => []
          end /\
  state (self (create w)) = "pending" /\
  message_queue (self (create w)) = message_queue (self w).
Proof.
  intros H. rewrite (create_connected_eq w H). repeat split.
Qed.

(** ** [send] *)

(** X4. While the subscription is [pending] or [connection_pending], [send]
    appends the message at the tail of the queue, which grows by one, and
    makes no call. *)
Theorem send_while_pending (m : Message) (w : World Message) :
  state (self w) = "pending" \/ state (self w) = "connection_pending" ->
  message_queue (self (send m w)) = message_queue (self w) ++ [m] /\
  length (message_queue (self (send m w))) =
    S (length (message_queue (self w))) /\
  trace (send m w) = trace w /\
  state (self (send m w)) = state (self w).
Proof.
  intros H.
  assert (Hs : send m w =
               set_message_queue (message_queue (self w) ++ [m]) w).
  { destruct H as [H|H]; unfold send; rewrite H; reflexivity. }
  rewrite Hs. simpl. rewrite length_app. simpl.
  split; [reflexivity|]. split; [lia|]. split; reflexivity.
Qed.

Lemma eqb_of_not_holding (st : string) :
  ~ In st holding_states ->
  String.eqb st "pending" = false /\
  String.eqb st "connection_pending" = false /\
  String.eqb st "unsubscribed" = false /\
  String.eqb st "rejected" = false.
Proof.
  intros H. repeat split; apply String.eqb_neq; intros ->; apply H;
    simpl; tauto.
Qed.

(** X5. In every other state than the four holding ones, [send] hands the
    connection exactly one message frame, carrying the identifier text and
    [raw_message] of the message; state and queue are kept. *)
Theorem send_when_not_holding (m : Message) (w : World Message) :
  ~ In (state (self w)) holding_states ->
  trace (send m w) =
    trace w
    ++ [mkEvent
          (ConnSend
             (JDict [("command", JStr "message");
                     ("identifier",
                      JStr (PyJson.dumps (identifier (self w))));
                     ("data", raw_message m)]))
          (state (self w))] /\
  state (self (send m w)) = state (self w) /\
  message_queue (self (send m w)) = message_queue (self w).
Proof.
  intros H. destruct (eqb_of_not_holding _ H) as (H1 & H2 & H3 & H4).
  unfold send. rewrite H1, H2, H3, H4. repeat split.
Qed.



(** X7. After [remove], [send] drops every message until the subscription is
    created again: any number of [send] calls leaves the world as [remove]
    left it. *)
Theorem sends_after_remove_dropped (ms : list Message) (w : World Message) :
  foldl (fun acc m => send m acc) (remove w) ms = remove w.
Proof.
  rewrite remove_eq. induction ms as [|m ms IH]; simpl; [reflexivity|].
  exact IH.
Qed.

End Operations_facts.

Section Received_facts.

Context {Message : Type} `{!MessageLike Message}.

Lemma receive_calls_app (a b : list Event) :
  receive_calls (a ++ b) = receive_calls a ++ receive_calls b.
Proof.
  induction a as [|e a IH]; simpl; [reflexivity|].
  destruct (ev_call e); simpl; rewrite IH; reflexivity.
Qed.

Lemma receive_calls_state_calls (w : World Message) (s : string) :
  receive_calls (state_calls w s) = [].
Proof. unfold state_calls. destruct (on_event (self w)); reflexivity. Qed.

Lemma receive_calls_flush_calls (w : World Message) (ms : list Message) :
  receive_calls (flush_calls w ms) = [].
Proof. induction ms as [|m ms IH]; simpl; [reflexivity|exact IH]. Qed.

Lemma received_plain (fuel : nat) (data : gmap string json)
    (w : World Message) :
  plain_frame data ->
  received fuel data w =
  match receive_callback (self w), data !! "message" with
  | Some cb, Some m => Some (call (ReceiveCallback cb m) w)
  | _, _ => Some w
  end.
Proof. intros [H1 H2]. unfold received. rewrite H1, H2. reflexivity. Qed.

(** ** Termination of [received] *)

(** X8. [received] always returns: one unit of fuel per queued message is
    enough for the flush loop, and more fuel does not change the result. *)
Theorem received_terminates (fuel : nat) (data : gmap string json)
    (w : World Message) :
  length (message_queue (self w)) <= fuel ->
  is_Some (deliver data w) /\ received fuel data w = deliver data w.
Proof.
  intros Hlen. unfold deliver, received.
  destruct (py_eq_str (data !! "type") "confirm_subscription").
  - rewrite (_subscribed_eq fuel w Hlen).
    rewrite _subscribed_eq by reflexivity. split; [eexists|]; reflexivity.
  - destruct (py_eq_str (data !! "type") "reject_subscription");
      [split; [eexists|]; reflexivity|].
    destruct (receive_callback (self w)), (data !! "message");
      split; try eexists; reflexivity.
Qed.

(** ** Application messages *)

(** X9. Once a callback is registered with [on_receive], a frame that is
    neither a confirmation nor a rejection and has a [message] field makes
    [received] call that callback exactly once, with the value of the
    field; nothing is sent and state and queue are kept. *)
Theorem message_forwarded_to_callback (fuel : nat) (cb : string)
    (payload : json) (data : gmap string json) (w : World Message) :
  plain_frame data ->
  data !! "message" = Some payload ->
  exists w',
    received fuel data (on_receive cb w) = Some w' /\
    trace w' = trace w ++ [mkEvent (ReceiveCallback cb payload)
                             (state (self w))] /\
    receive_calls (trace w') = receive_calls (trace w) ++ [(cb, payload)] /\
    sent_frames (trace w') = sent_frames (trace w) /\
    state (self w') = state (self w) /\
    message_queue (self w') = message_queue (self w).
Proof.
  intros Hp Hm. rewrite (received_plain fuel data _ Hp). rewrite Hm.
  simpl. eexists. split; [reflexivity|]. simpl.
  rewrite receive_calls_app, sent_frames_app. simpl.
  rewrite app_nil_r. repeat split.
Qed.

(** X10. A later [on_receive] replaces the callback: only the callback
    registered last is called. *)
Theorem on_receive_replaces (fuel : nat) (cb1 cb2 : string)
    (payload : json) (data : gmap string json) (w : World Message) :
  plain_frame data ->
  data !! "message" = Some payload ->
  exists w',
    received fuel data (on_receive cb2 (on_receive cb1 w)) = Some w' /\
    receive_calls (trace w') = receive_calls (trace w) ++ [(cb2, payload)].
Proof.
  intros Hp Hm. rewrite (received_plain fuel data _ Hp). rewrite Hm.
  simpl. eexists. split; [reflexivity|]. simpl.
  rewrite receive_calls_app. reflexivity.
Qed.

(** X11. A frame that is neither a confirmation nor a rejection is ignored
    when no receive callback is registered or when it has no [message]
    field: [received] returns the world unchanged. *)
Theorem unknown_frame_ignored (fuel : nat) (data : gmap string json)
    (w : World Message) :
  plain_frame data ->
  receive_callback (self w) = None \/ data !! "message" = None ->
  received fuel data w = Some w.
Proof.
  intros Hp H. rewrite (received_plain fuel data w Hp).
  destruct H as [H|H]; rewrite H; [reflexivity|].
  destruct (receive_callback (self w)); reflexivity.
Qed.

(** A [type] field that is not a string (a number, [null], a list) is the
    type of no control frame: the frame is treated like one without
    [type]. *)
Lemma non_string_type_is_plain (data : gmap string json) :
  (forall s, data !! "type" <> Some (JStr s)) ->
  plain_frame data.
Proof.
  intros H. unfold plain_frame, py_eq_str.
  destruct (data !! "type") as [[| | |s| |]|]; try (split; reflexivity).
  exfalso. apply (H s). reflexivity.
Qed.

(** X12. Control frames never reach the receive callback: a confirmation or a
    rejection makes no call to it, even with a callback registered and a
    [message] field in the frame. *)
Theorem control_frame_not_forwarded (data : gmap string json)
    (w : World Message) :
  data !! "type" = Some (JStr "confirm_subscription") \/
  data !! "type" = Some (JStr "reject_subscription") ->
  exists w',
    deliver data w = Some w' /\
    receive_calls (trace w') = receive_calls (trace w).
Proof.
  intros [H|H]; unfold deliver.
  - rewrite (received_confirm _ data w H).
    rewrite _subscribed_eq by reflexivity. eexists.
    split; [reflexivity|]. simpl.
    rewrite !receive_calls_app, receive_calls_state_calls,
      receive_calls_flush_calls, !app_nil_r. reflexivity.
  - rewrite (received_reject _ data w H). rewrite _rejected_eq. eexists.
    split; [reflexivity|]. simpl.
    rewrite receive_calls_app, receive_calls_state_calls, app_nil_r.
    reflexivity.
Qed.

(** ** Rejection, then confirmation *)

(** X13. Messages queued before a rejection are gone for good: when a
    confirmation follows the rejection, the state becomes [subscribed] but
    not one frame is sent. *)
Theorem rejected_queue_never_sent (rejection confirmation : gmap string json)
    (w : World Message) :
  rejection !! "type" = Some (JStr "reject_subscription") ->
  confirmation !! "type" = Some (JStr "confirm_subscription") ->
  exists w1 w2 new,
    deliver rejection w = Some w1 /\
    deliver confirmation w1 = Some w2 /\
    trace w2 = trace w1 ++ new /\
    sent_frames new = [] /\
    sent_frames (trace w2) = sent_frames (trace w) /\
    state (self w2) = "subscribed".
Proof.
  intros Hr Hc. unfold deliver at 1.
  rewrite (received_reject _ rejection w Hr). rewrite _rejected_eq.
  eexists. eexists. eexists. split; [reflexivity|].
  unfold deliver. rewrite (received_confirm _ confirmation _ Hc).
  rewrite _subscribed_eq by reflexivity. simpl.
  split; [reflexivity|]. split; [reflexivity|].
  assert (Hnone : forall (w0 : World Message) s,
             sent_frames (state_calls w0 s ++ flush_calls w0 []) = []).
  { intros w0 s. rewrite sent_frames_app, sent_frames_state_calls.
    reflexivity. }
  split; [apply Hnone|]. split; [|reflexivity].
  cbn [trace]. rewrite app_nil_r.
  rewrite !sent_frames_app, !sent_frames_state_calls, !app_nil_r.
  reflexivity.
Qed.

End Received_facts.

Section Session_facts.

Context {Message : Type} `{!MessageLike Message}.

Lemma advances_refl (w : World Message) : advances w w.
Proof.
  repeat split; try (left; reflexivity).
  exists []. rewrite app_nil_r. repeat split; constructor.
Qed.

Lemma advances_trans (w1 w2 w3 : World Message) :
  advances w1 w2 -> advances w2 w3 -> advances w1 w3.
Proof.
  intros (Hu & Hi & Ho & Hr & Hs & new & Ht & Hc & He)
         (Hu' & Hi' & Ho' & Hr' & Hs' & new' & Ht' & Hc' & He').
  repeat split; try congruence.
  - destruct Hs' as [Hs'|Hs']; [|right; exact Hs'].
    rewrite Hs'. exact Hs.
  - exists (new ++ new'). rewrite Ht', Ht, app_assoc.
    split; [reflexivity|]. split.
    + apply Forall_app. split; [exact Hc|]. rewrite <- Hi, <- Ho. exact Hc'.
    + apply Forall_app. split; [exact He|].
      eapply Forall_impl; [exact He'|]. simpl. intros e [H|H].
      * rewrite H. exact Hs.
      * right. exact H.
Qed.

Lemma state_calls_ok (w : World Message) (s : string) :
  In s legal_states ->
  Forall (call_ok (identifier (self w)) (on_event (self w)))
    (state_calls w s) /\
  Forall (fun e => ev_state e = state (self w) \/
                   In (ev_state e) legal_states) (state_calls w s).
Proof.
  intros Hs. unfold state_calls. destruct (on_event (self w)) as [cb|].
  - split; (constructor; [|constructor]).
    + unfold call_ok. simpl. auto.
    + right. exact Hs.
  - split; constructor.
Qed.

Lemma flush_calls_ok (w : World Message) (ms : list Message) :
  Forall (call_ok (identifier (self w)) (on_event (self w)))
    (flush_calls w ms) /\
  Forall (fun e => ev_state e = state (self w) \/
                   In (ev_state e) legal_states) (flush_calls w ms).
Proof.
  induction ms as [|m ms [IH1 IH2]]; simpl; [split; constructor|].
  split; constructor; try assumption.
  - unfold call_ok. simpl. split; [reflexivity|]. right. right.
    split; [reflexivity|]. unfold holding_states. simpl.
    intros [H|[H|[H|[H|[]]]]]; discriminate H.
  - right. simpl. tauto.
Qed.

Lemma frame_sent_ok (w : World Message) (f : json) :
  frame_field "identifier" f =
    Some (JStr (PyJson.dumps (identifier (self w)))) ->
  frame_field "command" f = Some (JStr "subscribe") \/
  frame_field "command" f = Some (JStr "unsubscribe") ->
  call_ok (identifier (self w)) (on_event (self w))
    (mkEvent (ConnSend f) (state (self w))).
Proof.
  intros Hi Hc. unfold call_ok. simpl. split; [exact Hi|].
  destruct Hc as [Hc|Hc]; auto.
Qed.

Lemma advances_step (op : Op Message) (w w' : World Message) :
  step op w = Some w' -> advances w w'.
Proof.
  destruct op as [| |m|cb|data|b]; simpl; intros H.
  - (* create *)
    injection H as <-.
    destruct (connected (connection w)) eqn:Hc.
    + rewrite (create_connected_eq w Hc).
      destruct (state_calls_ok w "pending") as [H1 H2];
        [simpl; tauto|].
      repeat split; try (right; simpl; tauto).
      eexists. split; [reflexivity|]. split; constructor; try assumption.
      * apply frame_sent_ok; [reflexivity|left; reflexivity].
      * left. reflexivity.
    + unfold create. rewrite Hc. simpl.
      repeat split; try (right; simpl; tauto).
      exists []. rewrite app_nil_r. repeat split; constructor.
  - (* remove *)
    injection H as <-. rewrite remove_eq.
    destruct (state_calls_ok w "unsubscribed") as [H1 H2];
      [simpl; tauto|].
    repeat split; try (right; simpl; tauto).
    eexists. split; [reflexivity|]. split; constructor; try assumption.
    + apply frame_sent_ok; [reflexivity|right; reflexivity].
    + left. reflexivity.
  - (* send *)
    injection H as <-. unfold send.
    destruct (String.eqb (state (self w)) "pending"
              || String.eqb (state (self w)) "connection_pending") eqn:Hp.
    + repeat split; try (left; reflexivity).
      exists []. simpl. rewrite app_nil_r. repeat split; constructor.
    + destruct (String.eqb (state (self w)) "unsubscribed"
                || String.eqb (state (self w)) "rejected") eqn:Hd.
      * apply advances_refl.
      * repeat split; try (left; reflexivity).
        eexists. split; [reflexivity|].
        split; (constructor; [|constructor]); [|left; reflexivity].
        unfold call_ok. simpl. split; [reflexivity|].
        right. right. split; [reflexivity|].
        apply orb_false_elim in Hp as [Hp1 Hp2].
        apply orb_false_elim in Hd as [Hd1 Hd2].
        apply String.eqb_neq in Hp1, Hp2, Hd1, Hd2.
        unfold holding_states. simpl. intros [E|[E|[E|[E|[]]]]];
          symmetry in E; contradiction.
  - (* on_receive *)
    injection H as <-. simpl.
    repeat split; try (left; reflexivity).
    exists []. rewrite app_nil_r. repeat split; constructor.
  - (* received *)
    unfold deliver, received in H.
    destruct (py_eq_str (data !! "type") "confirm_subscription").
    + rewrite _subscribed_eq in H by reflexivity. injection H as <-.
      destruct (state_calls_ok w "subscribed") as [H1 H2];
        [simpl; tauto|].
      destruct (flush_calls_ok w (message_queue (self w))) as [H3 H4].
      repeat split; try (right; simpl; tauto).
      eexists. split; [reflexivity|].
      split; apply Forall_app; split; assumption.
    + destruct (py_eq_str (data !! "type") "reject_subscription").
      * injection H as <-. rewrite _rejected_eq.
        destruct (state_calls_ok w "rejected") as [H1 H2];
          [simpl; tauto|].
        repeat split; try (right; simpl; tauto).
        eexists. split; [reflexivity|]. split; assumption.
      * destruct (receive_callback (self w)) as [cb|];
          [destruct (data !! "message") as [m|]|];
          injection H as <-; try apply advances_refl.
        repeat split; try (left; reflexivity).
        eexists. split; [reflexivity|].
        split; (constructor; [|constructor]);
          [exact I|left; reflexivity].
  - (* the connection changes *)
    injection H as <-. simpl.
    repeat split; try (left; reflexivity).
    exists []. rewrite app_nil_r. repeat split; constructor.
Qed.

Lemma deliver_returns (data : gmap string json) (w : World Message) :
  is_Some (deliver data w).
Proof.
  unfold deliver, received.
  destruct (py_eq_str (data !! "type") "confirm_subscription").
  - rewrite _subscribed_eq by reflexivity. eexists. reflexivity.
  - destruct (py_eq_str (data !! "type") "reject_subscription");
      [eexists; reflexivity|].
    destruct (receive_callback (self w)), (data !! "message");
      eexists; reflexivity.
Qed.

Lemma step_total (op : Op Message) (w : World Message) :
  is_Some (step op w).
Proof.
  destruct op; simpl; try (eexists; reflexivity).
  apply deliver_returns.
Qed.

Lemma run_advances (ops : list (Op Message)) (w : World Message) :
  exists w', run ops w = Some w' /\ advances w w'.
Proof.
  revert w. induction ops as [|op ops IH]; intros w; simpl.
  - exists w. split; [reflexivity|apply advances_refl].
  - destruct (step_total op w) as [w1 H1]. rewrite H1.
    destruct (IH w1) as (w' & Hr & Ha). exists w'.
    split; [exact Hr|].
    eapply advances_trans; [exact (advances_step op w w1 H1)|exact Ha].
Qed.

End Session_facts.

Section Session_invariants.

Context {Message : Type} `{!MessageLike Message}.

Lemma in_sent_frames (f : json) (t : list Event) :
  In f (sent_frames t) ->
  exists e, In e t /\ ev_call e = ConnSend f.
Proof.
  induction t as [|e t IH]; simpl; [tauto|].
  destruct (ev_call e) as [d| |] eqn:He; simpl; intros H.
  - destruct H as [<-|H]; [exists e; auto|].
    destruct (IH H) as (e' & H1 & H2). exists e'. auto.
  - destruct (IH H) as (e' & H1 & H2). exists e'. auto.
  - destruct (IH H) as (e' & H1 & H2). exists e'. auto.
Qed.

Lemma in_state_events (ev st : string) (t : list Event) :
  In (ev, st) (state_events t) ->
  exists e cb d, In e t /\ ev_call e = OnEvent cb ev d /\ ev_state e = st.
Proof.
  induction t as [|e t IH]; simpl; [tauto|].
  destruct (ev_call e) as [|cb ev' d|] eqn:He; simpl; intros H.
  - destruct (IH H) as (e' & cb' & d' & H1 & H2). exists e', cb', d'. auto.
  - destruct H as [H|H].
    + injection H as -> <-. exists e, cb, d. auto.
    + destruct (IH H) as (e' & cb' & d' & H1 & H2). exists e', cb', d'.
      auto.
  - destruct (IH H) as (e' & cb' & d' & H1 & H2). exists e', cb', d'. auto.
Qed.

(** ** Invariants of every sequence of calls *)

(** X14. Whatever the application, the server and the connection do, every
    sequence of operations returns, and it changes neither the uuid, nor
    the identifier, nor the state callback of the subscription, nor the
    registry of the connection: in particular no operation, [remove]
    included, takes the subscription out of the registry. *)
Theorem run_keeps_identity (ops : list (Op Message)) (w : World Message) :
  exists w',
    run ops w = Some w' /\
    uuid (self w') = uuid (self w) /\
    identifier (self w') = identifier (self w) /\
    on_event (self w') = on_event (self w) /\
    subscriptions (connection w') = subscriptions (connection w).
Proof.
  destruct (run_advances ops w) as (w' & Hr & Hu & Hi & Ho & Hs & _).
  exists w'. auto.
Qed.

(** X15. Calls are only ever added to the trace, and every frame handed to the
    connection, in any sequence of operations, is a subscribe, unsubscribe
    or message frame whose identifier field is [json.dumps] of the
    identifier the subscription was built with. *)
Theorem run_frames_canonical (ops : list (Op Message)) (w : World Message) :
  exists w' new,
    run ops w = Some w' /\
    trace w' = trace w ++ new /\
    forall f, In f (sent_frames new) ->
      frame_field "identifier" f =
        Some (JStr (PyJson.dumps (identifier (self w)))) /\
      (frame_field "command" f = Some (JStr "subscribe") \/
       frame_field "command" f = Some (JStr "unsubscribe") \/
       frame_field "command" f = Some (JStr "message")).
Proof.
  destruct (run_advances ops w)
    as (w' & Hr & _ & _ & _ & _ & _ & new & Ht & Hc & _).
  exists w', new. split; [exact Hr|]. split; [exact Ht|].
  intros f Hf. destruct (in_sent_frames f new Hf) as (e & He & Hcall).
  rewrite Forall_forall in Hc. specialize (Hc e).
  rewrite list_elem_of_In in Hc. specialize (Hc He).
  unfold call_ok in Hc. rewrite Hcall in Hc.
  destruct Hc as [Hid Hcmd]. split; [exact Hid|]. tauto.
Qed.

(** X16. In any sequence of operations, the state callback is always told the
    state the subscription is in at that moment, and that state is one of
    the five documented ones; without a state callback, no such call is
    made. *)
Theorem run_state_callbacks (ops : list (Op Message)) (w : World Message) :
  exists w' new,
    run ops w = Some w' /\
    trace w' = trace w ++ new /\
    (forall event st, In (event, st) (state_events new) ->
       event = st /\ In event legal_states) /\
    (on_event (self w) = None -> state_events new = []).
Proof.
  destruct (run_advances ops w)
    as (w' & Hr & _ & _ & _ & _ & _ & new & Ht & Hc & _).
  exists w', new. split; [exact Hr|]. split; [exact Ht|].
  rewrite Forall_forall in Hc. split.
  - intros event st Hin.
    destruct (in_state_events event st new Hin)
      as (e & cb & d & He & Hcall & Hst).
    specialize (Hc e). rewrite list_elem_of_In in Hc. specialize (Hc He).
    unfold call_ok in Hc. rewrite Hcall in Hc.
    destruct Hc as (_ & Hev & _ & Hl). split; [congruence|exact Hl].
  - intros Hnone.
    destruct (state_events new) as [|[event st] rest] eqn:Hse;
      [reflexivity|].
    assert (Hin : In (event, st) (state_events new))
      by (rewrite Hse; left; reflexivity).
    destruct (in_state_events event st new Hin)
      as (e & cb & d & He & Hcall & _).
    specialize (Hc e). rewrite list_elem_of_In in Hc. specialize (Hc He).
    unfold call_ok in Hc. rewrite Hcall in Hc.
    destruct Hc as (Hcb & _). congruence.
Qed.

(** X17. Once the state is one of the five documented ones, no sequence of
    operations sends a message frame in any state but [subscribed]:
    application messages go out only on a confirmed subscription. *)
Theorem run_messages_only_when_subscribed (ops : list (Op Message))
    (w : World Message) :
  In (state (self w)) legal_states ->
  exists w' new,
    run ops w = Some w' /\
    trace w' = trace w ++ new /\
    forall e f, In e new -> ev_call e = ConnSend f ->
      frame_field "command" f = Some (JStr "message") ->
      ev_state e = "subscribed".
Proof.
  intros Hlegal.
  destruct (run_advances ops w)
    as (w' & Hr & _ & _ & _ & _ & _ & new & Ht & Hc & Hs).
  exists w', new. split; [exact Hr|]. split; [exact Ht|].
  intros e f He Hcall Hcmd.
  rewrite Forall_forall in Hc, Hs. specialize (Hc e). specialize (Hs e).
  rewrite list_elem_of_In in Hc, Hs. specialize (Hc He). specialize (Hs He).
  unfold call_ok in Hc. rewrite Hcall in Hc.
  destruct Hc as [_ [Hc|[Hc|[_ Hc]]]]; try congruence.
  assert (Hl : In (ev_state e) legal_states).
  { destruct Hs as [Hs|Hs]; [rewrite Hs; exact Hlegal|exact Hs]. }
  unfold legal_states, holding_states in *. simpl in Hl, Hc.
  destruct Hl as [Hl|[Hl|[Hl|[Hl|[Hl|[]]]]]]; try (symmetry; exact Hl);
    exfalso; apply Hc; tauto.
Qed.

(** X18. The state after any sequence of operations is the state before it or
    one of the five documented states; started in a documented state, the
    subscription stays in documented states. *)
Theorem run_state_documented (ops : list (Op Message)) (w : World Message) :
  exists w',
    run ops w = Some w' /\
    (state (self w') = state (self w) \/ In (state (self w')) legal_states) /\
    (In (state (self w)) legal_states -> In (state (self w')) legal_states).
Proof.
  destruct (run_advances ops w) as (w' & Hr & _ & _ & _ & _ & Hs & _).
  exists w'. split; [exact Hr|]. split; [exact Hs|].
  intros Hl. destruct Hs as [Hs|Hs]; [rewrite Hs; exact Hl|exact Hs].
Qed.



End Session_invariants.

(** ** The identifier text *)

Lemma all_printable_app (a b : string) :
  all_printable (a +:+ b) = all_printable a && all_printable b.
Proof.
  induction a as [|c a IH]; simpl; [reflexivity|].
  rewrite IH. apply andb_assoc.
Qed.

Lemma escape_char_printable (c : ascii) :
  all_printable (PyJson.escape_char c) = true.
Proof. destruct c as [[] [] [] [] [] [] [] []]; reflexivity. Qed.

Lemma escape_printable (s : string) :
  all_printable (PyJson.escape s) = true.
Proof.
  induction s as [|c s IH]; simpl; [reflexivity|].
  rewrite all_printable_app, escape_char_printable, IH. reflexivity.
Qed.

Lemma encode_basestring_ascii_printable (s : string) :
  all_printable (PyJson.encode_basestring_ascii s) = true.
Proof.
  unfold PyJson.encode_basestring_ascii.
  change (all_printable (String PyJson.double_quote
            (PyJson.escape s +:+ String PyJson.double_quote EmptyString)))
    with (all_printable
            (PyJson.escape s +:+ String PyJson.double_quote EmptyString)).
  rewrite all_printable_app, escape_printable. reflexivity.
Qed.

Lemma digits_printable (d : Decimal.uint) :
  all_printable (NilEmpty.string_of_uint d) = true.
Proof. induction d; simpl; try reflexivity; exact IHd. Qed.

Lemma string_of_uint_printable (d : Decimal.uint) :
  all_printable (NilZero.string_of_uint d) = true.
Proof.
  unfold NilZero.string_of_uint.
  destruct d; try reflexivity; apply digits_printable.
Qed.

Lemma int_repr_printable (n : Z) :
  all_printable (PyJson.int_repr n) = true.
Proof.
  unfold PyJson.int_repr, NilZero.string_of_int.
  destruct (Z.to_int n) as [d|d]; simpl; apply string_of_uint_printable.
Qed.

(** X20. Whatever the identifier holds, control characters, quotes and
    characters above [~] included, the text [json.dumps] makes of it
    consists of the characters [' '..'~'] only. *)
Theorem dumps_printable (v : json) :
  all_printable (PyJson.dumps v) = true.
Proof.
  revert v. fix IH 1. intros [|[|]|n|s|items|items]; try reflexivity.
  - apply int_repr_printable.
  - apply encode_basestring_ascii_printable.
  - simpl. rewrite !all_printable_app. simpl. rewrite andb_true_r.
    induction items as [|x rest IHr]; [reflexivity|].
    rewrite all_printable_app, (IH x). simpl.
    destruct rest as [|y rest']; [reflexivity|].
    rewrite all_printable_app. simpl. exact IHr.
  - simpl. rewrite !all_printable_app. simpl. rewrite andb_true_r.
    induction items as [|[k x] rest IHr]; [reflexivity|].
    rewrite !all_printable_app, encode_basestring_ascii_printable, (IH x).
    simpl. destruct rest as [|y rest']; [reflexivity|].
    rewrite all_printable_app. simpl. exact IHr.
Qed.

(** ** The further properties, at the scenario *)

Lemma create_without_connection_witness :
  state (self (create (chat_world "subscribed" [text_hi] closed_connection)))
    = "connection_pending" /\
  trace (create (chat_world "subscribed" [text_hi] closed_connection)) = [] /\
  message_queue
    (self (create (chat_world "subscribed" [text_hi] closed_connection)))
    = [text_hi] /\
  connection (create (chat_world "subscribed" [text_hi] closed_connection))
    = closed_connection /\
  receive_callback
    (self (create (chat_world "subscribed" [text_hi] closed_connection)))
    = None.
Proof.
  refine (create_without_connection
           (chat_world "subscribed" [text_hi] closed_connection) _).
  reflexivity.
Defined.

Lemma create_subscribes_witness :
  trace (create (chat_world "rejected" [] open_connection)) =
    [mkEvent
       (ConnSend
          (JDict [("command", JStr "subscribe");
                  ("identifier", JStr (PyJson.dumps chat_identifier))]))
       "rejected";
     mkEvent (OnEvent "on_state" "pending" None) "pending"] /\
  state (self (create (chat_world "rejected" [] open_connection)))
    = "pending" /\
  message_queue (self (create (chat_world "rejected" [] open_connection)))
    = [].
Proof.
  refine (create_subscribes (chat_world "rejected" [] open_connection) _).
  reflexivity.
Defined.

Lemma send_while_pending_witness :
  message_queue
    (self (send text_yo (chat_world "pending" [text_hi] open_connection)))
    = [text_hi; text_yo] /\
  length
    (message_queue
       (self (send text_yo (chat_world "pending" [text_hi] open_connection))))
    = 2 /\
  trace (send text_yo (chat_world "pending" [text_hi] open_connection))
    = [] /\
  state (self (send text_yo (chat_world "pending" [text_hi] open_connection)))
    = "pending".
Proof.
  refine (send_while_pending text_yo
           (chat_world "pending" [text_hi] open_connection) _).
  left. reflexivity.
Defined.

Lemma send_when_not_holding_witness :
  trace (send text_hi (chat_world "subscribed" [] open_connection)) =
    [mkEvent
       (ConnSend
          (JDict [("command", JStr "message");
                  ("identifier", JStr (PyJson.dumps chat_identifier));
                  ("data", text_hi)]))
       "subscribed"] /\
  state (self (send text_hi (chat_world "subscribed" [] open_connection)))
    = "subscribed" /\
  message_queue
    (self (send text_hi (chat_world "subscribed" [] open_connection))) = [].
Proof.
  refine (send_when_not_holding text_hi
           (chat_world "subscribed" [] open_connection) _).
  simpl. intros [H|[H|[H|[H|[]]]]]; discriminate H.
Defined.


Lemma received_terminates_witness :
  is_Some (deliver confirm_frame
             (chat_world "pending" [text_hi; text_yo] open_connection)) /\
  received 7 confirm_frame
    (chat_world "pending" [text_hi; text_yo] open_connection) =
  deliver confirm_frame
    (chat_world "pending" [text_hi; text_yo] open_connection).
Proof.
  refine (received_terminates 7 confirm_frame
           (chat_world "pending" [text_hi; text_yo] open_connection) _).
  simpl. lia.
Defined.

Lemma message_forwarded_to_callback_witness :
  exists w',
    received 0 chat_message
      (on_receive "on_message"
         (chat_world "subscribed" [] open_connection)) = Some w' /\
    trace w' =
      [] ++ [mkEvent (ReceiveCallback "on_message" text_hi) "subscribed"] /\
    receive_calls (trace w') = [] ++ [("on_message", text_hi)] /\
    sent_frames (trace w') = [] /\
    state (self w') = "subscribed" /\
    message_queue (self w') = [].
Proof.
  refine (message_forwarded_to_callback 0 "on_message" text_hi chat_message
           (chat_world "subscribed" [] open_connection) _ _).
  - split; reflexivity.
  - reflexivity.
Defined.

Lemma on_receive_replaces_witness :
  exists w',
    received 0 chat_message
      (on_receive "second"
         (on_receive "first"
            (chat_world "subscribed" [] open_connection))) = Some w' /\
    receive_calls (trace w') = [] ++ [("second", text_hi)].
Proof.
  refine (on_receive_replaces 0 "first" "second" text_hi chat_message
           (chat_world "subscribed" [] open_connection) _ _).
  - split; reflexivity.
  - reflexivity.
Defined.

Lemma unknown_frame_ignored_witness :
  received 0 ping_frame
    (on_receive "on_message" (chat_world "subscribed" [] open_connection)) =
  Some (on_receive "on_message"
          (chat_world "subscribed" [] open_connection)).
Proof.
  refine (unknown_frame_ignored 0 ping_frame
           (on_receive "on_message"
              (chat_world "subscribed" [] open_connection)) _ _).
  - split; reflexivity.
  - right. reflexivity.
Defined.

Lemma control_frame_not_forwarded_witness :
  exists w',
    deliver (<["message" := text_hi]> confirm_frame)
      (on_receive "on_message"
         (chat_world "pending" [] open_connection)) = Some w' /\
    receive_calls (trace w') = [].
Proof.
  refine (control_frame_not_forwarded (<["message" := text_hi]> confirm_frame)
           (on_receive "on_message"
              (chat_world "pending" [] open_connection)) _).
  left. reflexivity.
Defined.

Lemma rejected_queue_never_sent_witness :
  exists w1 w2 new,
    deliver reject_frame
      (chat_world "pending" [text_hi; text_yo] open_connection) = Some w1 /\
    deliver confirm_frame w1 = Some w2 /\
    trace w2 = trace w1 ++ new /\
    sent_frames new = [] /\
    sent_frames (trace w2) = [] /\
    state (self w2) = "subscribed".
Proof.
  refine (rejected_queue_never_sent reject_frame confirm_frame
           (chat_world "pending" [text_hi; text_yo] open_connection) _ _);
    reflexivity.
Defined.

Lemma run_messages_only_when_subscribed_witness :
  exists w' new,
    run chat_session (chat_world "unsubscribed" [] open_connection)
      = Some w' /\
    trace w' = [] ++ new /\
    forall e f, In e new -> ev_call e = ConnSend f ->
      frame_field "command" f = Some (JStr "message") ->
      ev_state e = "subscribed".
Proof.
  refine (run_messages_only_when_subscribed chat_session
           (chat_world "unsubscribed" [] open_connection) _).
  simpl. tauto.
Defined.


(** The session, run: the subscribe frame, the flushed message, the message
    sent once subscribed, the unsubscribe frame; the queue still holds the
    message that was flushed. *)
Example chat_session_run :
  (fun r => (state (self r), message_queue (self r),
             map (frame_field "command") (sent_frames (trace r))))
    <$> run chat_session (chat_world "unsubscribed" [] open_connection) =
  Some ("unsubscribed", [text_hi],
        [Some (JStr "subscribe"); Some (JStr "message");
         Some (JStr "message"); Some (JStr "unsubscribe")]).
Proof. reflexivity. Qed.
